(** * Titanic API: the application factory [create_app] of [src/app.py]

    A shallow embedding of the Flask application factory and of the three
    view functions it registers, together with the part of the framework
    the factory drives: the configuration dictionary, the URL map, the
    endpoint table and request dispatch.

    Layout: Python values and outcomes; a state-and-exception monad; the
    [Flask] application object and its methods; the factory; the views;
    request dispatch; sample deployments; then the theorems, first for
    every deployment, last at the samples. *)

From Stdlib Require Import ZArith Ascii String List Bool Lia.
From stdpp Require Import base option gmap strings list fin_maps.

Local Open Scope string_scope.
Local Open Scope list_scope.
Local Open Scope Z_scope.

(** ** Python values *)

(** The values that occur in configuration objects and in the dictionaries
    the views return.  A [PDict] keeps its items in insertion order, as a
    Python [dict] does. *)
#[warnings="-register-all"]
Inductive PyVal : Type :=
| PNone
| PBool (b : bool)
| PInt (z : Z)
| PStr (s : string)
| PDict (items : list (string * PyVal)).

(** [d[k]] on the items of a dict literal. *)
Fixpoint dict_get (k : string) (items : list (string * PyVal)) : option PyVal :=
  match items with
  | [] => None
  | (k', v) :: rest => if String.eqb k k' then Some v else dict_get k rest
  end.

Definition dict_keys (items : list (string * PyVal)) : list string :=
  map fst items.

(** An exception object: its class name, whether the class derives from
    [Exception] (as opposed to deriving from [BaseException] only, like
    [KeyboardInterrupt] and [SystemExit]), and the value of [str(e)]. *)
Record PyExc : Type := mkExc {
  exc_class : string;
  exc_is_Exception : bool;
  exc_str : string
}.

(** [str(e)] *)
Definition str (e : PyExc) : string := exc_str e.

(** ** Outcomes and the state-and-exception monad *)

Inductive Outcome (E A : Type) : Type :=
| Return (a : A)
| Raise (e : E).
Arguments Return {E A} a.
Arguments Raise {E A} e.

(** A computation over a state [St] that returns or raises; the state
    reached when an exception is raised is kept. *)
Definition Py (E St A : Type) : Type := St -> Outcome E A * St.

Module PyMonad.

Definition ret {E St A} (a : A) : Py E St A := fun s => (Return a, s).

Definition raise {E St A} (e : E) : Py E St A := fun s => (Raise e, s).

Definition bind {E St A B} (m : Py E St A) (k : A -> Py E St B) : Py E St B :=
  fun s =>
    match m s with
    | (Return a, s') => k a s'
    | (Raise e, s') => (Raise e, s')
    end.

(** [try: body  except <classes accepted by catches> as e: handler e] *)
Definition try_except {E St A} (catches : E -> bool)
    (body : Py E St A) (handler : E -> Py E St A) : Py E St A :=
  fun s =>
    match body s with
    | (Return a, s') => (Return a, s')
    | (Raise e, s') => if catches e then handler e s' else (Raise e, s')
    end.

Definition modify {E St} (f : St -> St) : Py E St unit :=
  fun s => (Return tt, f s).

End PyMonad.
Import PyMonad.

Declare Scope py_scope.
Delimit Scope py_scope with py.
Notation "x <- m ;; k" := (bind m (fun x => k))
  (at level 100, m at next level, right associativity) : py_scope.
Notation "m ;;; k" := (bind m (fun _ => k))
  (at level 100, right associativity) : py_scope.
Local Open Scope py_scope.

(** ** Strings as Flask and Python treat them *)

Definition is_ascii_upper (c : ascii) : bool :=
  let n := nat_of_ascii c in (Nat.leb 65 n) && (Nat.leb n 90).

Definition is_ascii_lower (c : ascii) : bool :=
  let n := nat_of_ascii c in (Nat.leb 97 n) && (Nat.leb n 122).

Fixpoint string_exists (p : ascii -> bool) (s : string) : bool :=
  match s with
  | EmptyString => false
  | String c rest => p c || string_exists p rest
  end.

(** [s.isupper()] on ASCII text: some cased character, and no lower-case
    one. *)
Definition ascii_isupper (s : string) : bool :=
  string_exists is_ascii_upper s && negb (string_exists is_ascii_lower s).

Definition ascii_upper_char (c : ascii) : ascii :=
  if is_ascii_lower c then ascii_of_nat (nat_of_ascii c - 32) else c.

(** [s.upper()] on ASCII text. *)
Fixpoint ascii_upper (s : string) : string :=
  match s with
  | EmptyString => EmptyString
  | String c rest => String (ascii_upper_char c) (ascii_upper rest)
  end.

(** Is every byte of [s] below 128? *)
Fixpoint is_ascii (s : string) : bool :=
  match s with
  | EmptyString => true
  | String c rest => Nat.ltb (nat_of_ascii c) 128 && is_ascii rest
  end.

(** Python's [str.isupper] and [str.upper] follow the Unicode character
    database.  A string here is the UTF-8 encoding of a Python string; the
    two methods are taken as given, together with what they do on ASCII
    text. *)
Class PyStr : Type := {
  isupper : string -> bool;
  upper : string -> string;
  isupper_ascii : forall s, is_ascii s = true -> isupper s = ascii_isupper s;
  upper_ascii : forall s, is_ascii s = true -> upper s = ascii_upper s
}.

Definition slash : ascii := ascii_of_nat 47.
Definition dot : ascii := ascii_of_nat 46.

(** [s.lstrip("/")] *)
Fixpoint lstrip_slash (s : string) : string :=
  match s with
  | String c rest => if Ascii.eqb c slash then lstrip_slash rest else s
  | EmptyString => EmptyString
  end.

(** [s.rstrip("/")] *)
Fixpoint rstrip_slash (s : string) : string :=
  match s with
  | EmptyString => EmptyString
  | String c rest =>
      match rstrip_slash rest with
      | EmptyString => if Ascii.eqb c slash then EmptyString else String c EmptyString
      | r => String c r
      end
  end.

Definition contains_dot (s : string) : bool :=
  string_exists (fun c => Ascii.eqb c dot) s.

Definition newline : string := String (ascii_of_nat 10) EmptyString.

(** ** The application object *)

(** A rule of the URL map, with its methods in upper case.  Only rules
    without converters are modelled: a rule with variable parts never
    matches the fixed paths [/] and [/health] ahead of a rule that spells
    them out. *)
Record Rule : Type := mkRule {
  rule : string;
  methods : list string;
  endpoint : string
}.

(** The view functions an endpoint can be bound to: the three closures
    of [create_app], and the functions of a blueprint, each function
    object known by a number of its own. *)
Inductive View : Type :=
| fn_index
| fn_health_check
| fn_api_index
| fn_blueprint (f : nat).

Global Instance View_eq_dec : EqDecision View.
Proof. solve_decision. Defined.

Record Flask : Type := mkFlask {
  import_name : string;
  config : gmap string PyVal;
  extensions : list string;
  blueprints : list string;
  url_map : list Rule;
  view_functions : gmap string View
}.

Definition set_config (c : gmap string PyVal) (app : Flask) : Flask :=
  mkFlask (import_name app) c (extensions app) (blueprints app)
          (url_map app) (view_functions app).

Definition set_extensions (x : list string) (app : Flask) : Flask :=
  mkFlask (import_name app) (config app) x (blueprints app)
          (url_map app) (view_functions app).

Definition set_blueprints (b : list string) (app : Flask) : Flask :=
  mkFlask (import_name app) (config app) (extensions app) b
          (url_map app) (view_functions app).

Definition set_url_map (m : list Rule) (app : Flask) : Flask :=
  mkFlask (import_name app) (config app) (extensions app) (blueprints app)
          m (view_functions app).

Definition set_view_functions (v : gmap string View) (app : Flask) : Flask :=
  mkFlask (import_name app) (config app) (extensions app) (blueprints app)
          (url_map app) v.

(** A blueprint as [register_blueprint] sees it: a name and the routes
    recorded on it.  A route has its rule, its methods as written, the
    endpoint name (the name of the decorated function unless one is
    given) and the function object.  The routes of [people], defined in
    the views package, are an input of the model. *)
Record BlueprintRoute : Type := mkRoute {
  bp_rule : string;
  bp_methods : list string;
  bp_func : string;
  bp_view : nat
}.

Record Blueprint : Type := mkBlueprint {
  bp_name : string;
  bp_routes : list BlueprintRoute
}.

(** ** Bootstrap: effects, failures and the framework's methods *)

(** What the factory does to its collaborators, in the order it does it. *)
Inductive Effect : Type :=
| EvFlask (name : string)                        (* Flask(__name__) *)
| EvConfigLookup (env_name : string)             (* app_config[env_name] *)
| EvFromObject                                   (* app.config.from_object(..) *)
| EvDbInitApp                                    (* db.init_app(app) *)
| EvRegisterBlueprint (name prefix : string)     (* app.register_blueprint(..) *)
| EvRoute (rule endpoint : string).              (* @app.route(rule, ..) *)

Global Instance Effect_eq_dec : EqDecision Effect.
Proof. solve_decision. Defined.

(** What the factory can raise. *)
Inductive BootError : Type :=
| KeyError (key : string)             (* the registry has no such key *)
| InitError (e : PyExc)               (* raised by db.init_app *)
| ValueError (name : string)          (* blueprint name registered twice *)
| AssertionError (endpoint : string). (* endpoint bound to another function *)

(** The factory's monad: failures are [BootError]s, the state is the log
    of effects performed so far. *)
Definition Boot (A : Type) : Type := Py BootError (list Effect) A.

Definition tell (ev : Effect) : Boot unit := modify (fun log => log ++ [ev]).

(** The methods of a rule: Flask puts the names given in upper case and
    adds [OPTIONS] unless it is among them; Werkzeug adds [HEAD] to a rule
    that accepts [GET]. *)
Definition auto_methods `{PyStr} (ms : list string) : list string :=
  let given := map upper ms in
  given ++ (if bool_decide ("GET" ∈ given) && negb (bool_decide ("HEAD" ∈ given))
            then ["HEAD"] else [])
        ++ (if bool_decide ("OPTIONS" ∈ given) then [] else ["OPTIONS"]).

(** [app.add_url_rule(rule, endpoint, view_func, methods=ms)]: the rule is
    appended to the URL map, then the endpoint is bound, unless it is
    already bound to another function. *)
Definition add_url_rule `{PyStr} (r ep : string) (v : View) (ms : list string)
    (app : Flask) : Boot Flask :=
  let app1 := set_url_map (url_map app ++ [mkRule r (auto_methods ms) ep]) app in
  match view_functions app1 !! ep with
  | Some old =>
      if decide (old = v) then ret (set_view_functions (<[ep := v]> (view_functions app1)) app1)
      else raise (AssertionError ep)
  | None => ret (set_view_functions (<[ep := v]> (view_functions app1)) app1)
  end.

(** [@app.route(rule, methods=ms)] applied to the function [v] named [name]. *)
Definition route `{PyStr} (r : string) (ms : list string) (name : string) (v : View)
    (app : Flask) : Boot Flask :=
  tell (EvRoute r name) ;;;
  add_url_rule r name v ms app.

(** The rule of a blueprint route under a URL prefix. *)
Definition prefixed (url_prefix r : string) : string :=
  match r with
  | EmptyString => url_prefix
  | _ => rstrip_slash url_prefix +:+ "/" +:+ lstrip_slash r
  end.

(** The endpoint of a blueprint route: the blueprint's name, a dot, the
    endpoint name of the route.  (Flask refuses a blueprint whose name is
    empty or has a dot in it when the blueprint is made.) *)
Definition bp_endpoint (bp : Blueprint) (rt : BlueprintRoute) : string :=
  bp_name bp +:+ "." +:+ bp_func rt.

(** The routes recorded on the blueprint are added one by one, each with
    its own function; two routes with one endpoint name and different
    functions make [add_url_rule] raise. *)
Fixpoint add_blueprint_routes `{PyStr} (bp : Blueprint) (url_prefix : string)
    (rts : list BlueprintRoute) (app : Flask) : Boot Flask :=
  match rts with
  | [] => ret app
  | rt :: rest =>
      app1 <- add_url_rule (prefixed url_prefix (bp_rule rt)) (bp_endpoint bp rt)
                (fn_blueprint (bp_view rt)) (bp_methods rt) app ;;
      add_blueprint_routes bp url_prefix rest app1
  end.

(** [app.register_blueprint(bp, url_prefix=p)] *)
Definition register_blueprint `{PyStr} (bp : Blueprint) (url_prefix : string)
    (app : Flask) : Boot Flask :=
  tell (EvRegisterBlueprint (bp_name bp) url_prefix) ;;;
  if bool_decide (bp_name bp ∈ blueprints app) then raise (ValueError (bp_name bp))
  else
    add_blueprint_routes bp url_prefix (bp_routes bp)
      (set_blueprints (blueprints app ++ [bp_name bp]) app).

(** [config.from_object(obj)]: every attribute of [obj] whose name is
    upper-case is copied into the configuration. *)
Definition from_object `{PyStr} (obj cfg : gmap string PyVal) : gmap string PyVal :=
  filter (fun kv => isupper kv.1 = true) obj ∪ cfg.

(** ** Responses *)

(** What a view returns: a string, or a pair of a value and a status. *)
Inductive ViewReturn : Type :=
| RetStr (s : string)
| RetPair (v : PyVal) (status : Z).

Inductive Body : Type :=
| Text (s : string)
| Json (v : PyVal)
| ErrorPage.

Record Response : Type := mkResponse {
  status_code : Z;
  body : Body
}.

(** [app.make_response(rv)]: a string is a 200 text response, a dict is
    serialised as JSON under the status given with it; a value that is
    neither is a [TypeError], answered with status 500. *)
Definition make_response (rv : ViewReturn) : Response :=
  match rv with
  | RetStr s => mkResponse 200 (Text s)
  | RetPair (PStr s) st => mkResponse st (Text s)
  | RetPair (PDict d) st => mkResponse st (Json (PDict d))
  | RetPair _ _ => mkResponse 500 ErrorPage
  end.

(** ** The database session *)

(** Modelled from the spec: [db] comes from the models module, which is
    not among the sources; its session runs the liveness probe, which
    succeeds or raises.  Executing a statement returns rows or raises, and
    moves the session to a new state. *)
Class Session (S : Type) : Type := {
  execute : string -> S -> Outcome PyExc (list PyVal) * S
}.

(** Modelled from the spec: [db.init_app] initialises the database handle
    against the application and may fail.  It may raise on an application,
    and otherwise records the extension and fills in the configuration
    keys the application has left unset. *)
Record SQLAlchemy : Type := mkDb {
  init_raises : Flask -> option PyExc;
  init_defaults : gmap string PyVal
}.

(** What a request handler can read and change: the application object
    and the database session. *)
Record World (S : Type) : Type := mkWorld {
  w_app : Flask;
  w_session : S
}.
Arguments mkWorld {S} _ _.
Arguments w_app {S} _.
Arguments w_session {S} _.

Definition Handler (S A : Type) : Type := Py PyExc (World S) A.

(** [db.session.execute(sql)] *)
Definition session_execute {S} `{Session S} (sql : string) : Handler S (list PyVal) :=
  fun w =>
    let (r, s') := execute sql (w_session w) in
    (r, mkWorld (w_app w) s').

(** ** The views of [create_app] *)

Section Views.
Context {S : Type} `{Session S}.

Definition welcome : string :=
  newline +:+ "        Welcome to the Titanic API" +:+ newline +:+ "        ".

Definition index : Handler S ViewReturn :=
  ret (RetStr welcome).

Definition healthy_body : list (string * PyVal) :=
  [("status", PStr "healthy");
   ("database", PStr "connected");
   ("service", PStr "titanic-api")].

Definition unhealthy_body (e : PyExc) : list (string * PyVal) :=
  [("status", PStr "unhealthy");
   ("database", PStr "disconnected");
   ("error", PStr (str e))].

Definition health_check : Handler S ViewReturn :=
  try_except exc_is_Exception
    (session_execute "SELECT 1" ;;;
     ret (RetPair (PDict healthy_body) 200))
    (fun e => ret (RetPair (PDict (unhealthy_body e)) 503)).

Definition api_index_body : list (string * PyVal) :=
  [("message", PStr "Welcome to Titanic API");
   ("version", PStr "1.0.0");
   ("endpoints", PDict [("health", PStr "/health");
                        ("passengers", PStr "/api/v1/passengers")])].

Definition api_index : Handler S ViewReturn :=
  ret (RetPair (PDict api_index_body) 200).

End Views.

(** ** The factory *)

Section App.
Context `{PyStr}.
(** The collaborators [src/app.py] imports. *)
Variable __name__ : string.
Variable default_config : gmap string PyVal.
Variable app_config : gmap string (gmap string PyVal).
Variable db : SQLAlchemy.
Variable people : Blueprint.

(** [Flask(__name__)]: an application with the framework's default
    configuration and nothing registered.  (The route Flask adds for
    static files has a converter and is left out, see [Rule].) *)
Definition Flask_new (name : string) : Boot Flask :=
  tell (EvFlask name) ;;;
  ret (mkFlask name default_config [] [] [] ∅).

(** [app_config[env_name]] *)
Definition app_config_getitem (env_name : string) : Boot (gmap string PyVal) :=
  tell (EvConfigLookup env_name) ;;;
  match app_config !! env_name with
  | Some obj => ret obj
  | None => raise (KeyError env_name)
  end.

(** [app.config.from_object(obj)] *)
Definition config_from_object (obj : gmap string PyVal) (app : Flask) : Boot Flask :=
  tell EvFromObject ;;;
  ret (set_config (from_object obj (config app)) app).

(** [db.init_app(app)] *)
Definition init_app (app : Flask) : Boot Flask :=
  tell EvDbInitApp ;;;
  match init_raises db app with
  | Some e => raise (InitError e)
  | None =>
      ret (set_extensions (extensions app ++ ["sqlalchemy"])
             (set_config (config app ∪ init_defaults db) app))
  end.

Definition create_app (env_name : string) : Boot Flask :=
  app <- Flask_new __name__ ;;
  obj <- app_config_getitem env_name ;;
  app <- config_from_object obj app ;;
  app <- init_app app ;;
  app <- register_blueprint people "/" app ;;
  app <- route "/" ["GET"] "index" fn_index app ;;
  app <- route "/health" ["GET"] "health_check" fn_health_check app ;;
  app <- route "/" ["GET"] "api_index" fn_api_index app ;;
  ret app.

(** Calling the factory: it starts with nothing done yet. *)
Definition run_create_app (env_name : string) : Outcome BootError Flask * list Effect :=
  create_app env_name [].

End App.

(** ** Serving a GET request *)

Inductive MatchResult : Type :=
| Matched (ep : string)
| MethodNotAllowed
| NotFound.

(** The URL map puts the request method in upper case, tries its rules
    in the order they were added (among rules for the same fixed path,
    that is the order Werkzeug keeps) and stops at the first whose path
    and methods fit.  The path is the request path as the map receives
    it after normalisation: no doubled slash, and no trailing slash to be
    added or removed by a redirect. *)
Fixpoint match_rules `{PyStr} (path meth : string) (seen_path : bool)
    (rules : list Rule) : MatchResult :=
  match rules with
  | [] => if seen_path then MethodNotAllowed else NotFound
  | r :: rest =>
      if String.eqb (rule r) path then
        if bool_decide (upper meth ∈ methods r) then Matched (endpoint r)
        else match_rules path meth true rest
      else match_rules path meth seen_path rest
  end.

(** A view's return value turned into the response sent. *)
Definition respond {S} (view : Handler S ViewReturn) : Handler S Response :=
  rv <- view ;; ret (make_response rv).

(** The field [k] of a JSON object response. *)
Definition body_field (k : string) (r : Response) : option PyVal :=
  match body r with
  | Json (PDict d) => dict_get k d
  | _ => None
  end.

Section Serving.
Context `{PyStr} {S : Type} `{Session S}.
(** The bodies of the blueprint's views, by function. *)
Variable people_view : nat -> Handler S ViewReturn.

Definition view_body (v : View) : Handler S ViewReturn :=
  match v with
  | fn_index => index
  | fn_health_check => health_check
  | fn_api_index => api_index
  | fn_blueprint f => people_view f
  end.

(** [app.dispatch_request()] followed by [make_response], for a GET
    request to [path].  An exception that leaves the view leaves this
    function too. *)
Definition dispatch_get (app : Flask) (path : string) : Handler S Response :=
  match match_rules path "GET" false (url_map app) with
  | Matched ep =>
      match view_functions app !! ep with
      | Some v => respond (view_body v)
      | None => ret (mkResponse 500 ErrorPage)
      end
  | MethodNotAllowed => ret (mkResponse 405 ErrorPage)
  | NotFound => ret (mkResponse 404 ErrorPage)
  end.

(** A GET request served by [app] over the session state [s]. *)
Definition get (app : Flask) (path : string) (s : S) : Outcome PyExc Response * World S :=
  dispatch_get app path (mkWorld app s).

End Serving.

(** ** What the factory builds *)

(** The rule and the binding one blueprint route contributes. *)
Definition mount_route `{PyStr} (bp : Blueprint) (url_prefix : string)
    (app : Flask) (rt : BlueprintRoute) : Flask :=
  let app1 :=
    set_url_map (url_map app ++ [mkRule (prefixed url_prefix (bp_rule rt))
                                        (auto_methods (bp_methods rt))
                                        (bp_endpoint bp rt)]) app in
  set_view_functions
    (<[bp_endpoint bp rt := fn_blueprint (bp_view rt)]> (view_functions app1)) app1.

Definition mount `{PyStr} (bp : Blueprint) (url_prefix : string)
    (rts : list BlueprintRoute) (app : Flask) : Flask :=
  foldl (mount_route bp url_prefix) app rts.

Definition blueprint_rules `{PyStr} (bp : Blueprint) (url_prefix : string) : list Rule :=
  map (fun rt => mkRule (prefixed url_prefix (bp_rule rt))
                        (auto_methods (bp_methods rt)) (bp_endpoint bp rt))
      (bp_routes bp).

(** The three rules the decorators of [create_app] add, in source order. *)
Definition own_rules : list Rule :=
  [mkRule "/" ["GET"; "HEAD"; "OPTIONS"] "index";
   mkRule "/health" ["GET"; "HEAD"; "OPTIONS"] "health_check";
   mkRule "/" ["GET"; "HEAD"; "OPTIONS"] "api_index"].

(** Does the blueprint itself answer GET on [path] once mounted? *)
Definition blueprint_claims `{PyStr} (bp : Blueprint) (url_prefix path : string) : bool :=
  existsb (fun r => String.eqb (rule r) path && bool_decide ("GET" ∈ methods r))
          (blueprint_rules bp url_prefix).

(** The same, counting a rule that differs from [path] by trailing
    slashes only. *)
Definition blueprint_answers `{PyStr} (bp : Blueprint) (url_prefix path : string) : bool :=
  existsb (fun r => String.eqb (rstrip_slash (rule r)) (rstrip_slash path)
                    && bool_decide ("GET" ∈ methods r))
          (blueprint_rules bp url_prefix).

(** No two routes of the blueprint give one endpoint name to different
    functions. *)
Definition bp_consistent (bp : Blueprint) : bool :=
  forallb (fun rt1 =>
    forallb (fun rt2 =>
      if String.eqb (bp_func rt1) (bp_func rt2)
      then Nat.eqb (bp_view rt1) (bp_view rt2) else true)
      (bp_routes bp))
    (bp_routes bp).

Section Built.
Context `{PyStr}.
Variable __name__ : string.
Variable default_config : gmap string PyVal.
Variable db : SQLAlchemy.
Variable people : Blueprint.

(** The application when [db.init_app] is called on it. *)
Definition configured (obj : gmap string PyVal) : Flask :=
  mkFlask __name__ (from_object obj default_config) [] [] [] ∅.

(** The application when the blueprint has been registered. *)
Definition mounted (obj : gmap string PyVal) : Flask :=
  mount people "/" (bp_routes people)
    (mkFlask __name__ (from_object obj default_config ∪ init_defaults db)
             ["sqlalchemy"] [bp_name people] [] ∅).

(** The application [create_app] returns. *)
Definition wired (obj : gmap string PyVal) : Flask :=
  let app := mounted obj in
  mkFlask (import_name app) (config app) (extensions app) (blueprints app)
    (url_map app ++ own_rules)
    (<["api_index" := fn_api_index]>
       (<["health_check" := fn_health_check]>
          (<["index" := fn_index]> (view_functions app)))).

(** The effects of a call that returns. *)
Definition full_trace (env_name : string) : list Effect :=
  [EvFlask __name__; EvConfigLookup env_name; EvFromObject; EvDbInitApp;
   EvRegisterBlueprint (bp_name people) "/";
   EvRoute "/" "index"; EvRoute "/health" "health_check";
   EvRoute "/" "api_index"].

End Built.


(** ** A sample deployment *)

Module Sample.

(** [str.isupper] and [str.upper] as they are on ASCII text, which is all
    the sample deployments use. *)
Definition ascii_strings : PyStr :=
  {| isupper := ascii_isupper; upper := ascii_upper;
     isupper_ascii := fun s _ => eq_refl; upper_ascii := fun s _ => eq_refl |}.
#[local] Existing Instance ascii_strings.

(** A session that answers every statement, or fails every statement
    with [fault]; it keeps the rows stored and the statements run. *)
Record DemoSession : Type := mkDemo {
  fault : option PyExc;
  rows : list PyVal;
  executed : list string
}.

#[global] Instance Demo_Session : Session DemoSession := {
  execute sql s :=
    (match fault s with
     | Some e => Raise e
     | None => Return [PInt 1]
     end,
     mkDemo (fault s) (rows s) (executed s ++ [sql]))
}.

Definition up : DemoSession := mkDemo None [PStr "Braund"; PStr "Cumings"] [].

Definition down (e : PyExc) : DemoSession :=
  mkDemo (Some e) [PStr "Braund"; PStr "Cumings"] [].

Definition OperationalError : PyExc :=
  mkExc "OperationalError" true "could not connect to server".

(** [AssertionError()], raised by a bare [assert]: [str(e)] is empty. *)
Definition BareAssertion : PyExc := mkExc "AssertionError" true "".

(** The configuration class of the development environment: [secret] is
    not upper-case and is not taken over by [from_object]. *)
Definition development : gmap string PyVal :=
  {[ "DEBUG" := PBool true; "secret" := PStr "x" ]}.

Definition registry : gmap string (gmap string PyVal) :=
  {[ "development" := development;
     "production" := {[ "DEBUG" := PBool false ]} ]}.

Definition db : SQLAlchemy :=
  mkDb (fun _ => None) {[ "SQLALCHEMY_TRACK_MODIFICATIONS" := PBool false ]}.

Definition people : Blueprint :=
  mkBlueprint "people_api"
    [mkRoute "/people" ["GET"] "get_all" 0; mkRoute "/people" ["POST"] "create" 1].

Definition people_view (f : nat) : Handler DemoSession ViewReturn :=
  ret (RetPair (PDict []) 200).

Definition run (env_name : string) : Outcome BootError Flask * list Effect :=
  run_create_app "src.app" ∅ registry db people env_name.

Definition app : Flask := wired "src.app" ∅ db people development.

End Sample.

(** ** Deployments that go wrong *)

Module Faulty.
#[local] Existing Instance Sample.ascii_strings.

(** [KeyboardInterrupt()]: derives from [BaseException] only. *)
Definition KeyboardInterrupt : PyExc := mkExc "KeyboardInterrupt" false "".

(** [SystemExit(1)], as a worker's signal handler raises it: derives from
    [BaseException] only. *)
Definition SystemExit : PyExc := mkExc "SystemExit" false "1".

(** A database handle without a connection string: [init_app] raises. *)
Definition NoDatabaseUri : PyExc :=
  mkExc "RuntimeError" true "SQLALCHEMY_DATABASE_URI must be set".

Definition db : SQLAlchemy := mkDb (fun _ => Some NoDatabaseUri) ∅.

Definition run (env_name : string) : Outcome BootError Flask * list Effect :=
  run_create_app "src.app" ∅ Sample.registry db Sample.people env_name.



(** A blueprint that answers GET on [/health], with the method written in
    lower case. *)
Definition lower_case : Blueprint :=
  mkBlueprint "people_api" [mkRoute "/health" ["get"] "status" 0].


Definition lower_case_app : Flask :=
  wired "src.app" ∅ Sample.db lower_case Sample.development.

End Faulty.

(** ** Lemmas on the framework's methods *)

Lemma contains_dot_app (a b : string) :
  contains_dot (a +:+ "." +:+ b) = true.
Proof.
  unfold contains_dot. induction a as [|c a IH]; simpl.
  - reflexivity.
  - rewrite IH. apply orb_true_r.
Qed.

Lemma bp_endpoint_not_plain (bp : Blueprint) (rt : BlueprintRoute) (name : string) :
  contains_dot name = false -> bp_endpoint bp rt <> name.
Proof.
  intros Hname Heq. unfold bp_endpoint in Heq.
  rewrite <- Heq, contains_dot_app in Hname. discriminate.
Qed.

Lemma append_inj_r (a b c : string) : a +:+ b = a +:+ c -> b = c.
Proof.
  induction a as [|x a IH]; simpl; intros Heq; [exact Heq|].
  injection Heq as Heq. now apply IH.
Qed.

(** Two routes of a blueprint have one endpoint exactly when they have one
    endpoint name. *)
Lemma bp_endpoint_inj (bp : Blueprint) (rt1 rt2 : BlueprintRoute) :
  bp_endpoint bp rt1 = bp_endpoint bp rt2 -> bp_func rt1 = bp_func rt2.
Proof.
  unfold bp_endpoint. intros Heq.
  apply append_inj_r in Heq. now apply (append_inj_r ".") in Heq.
Qed.

Lemma bp_consistent_spec (bp : Blueprint) :
  bp_consistent bp = true <->
  (forall rt1 rt2, rt1 ∈ bp_routes bp -> rt2 ∈ bp_routes bp ->
                   bp_func rt1 = bp_func rt2 -> bp_view rt1 = bp_view rt2).
Proof.
  unfold bp_consistent. rewrite forallb_forall. split.
  - intros Hall rt1 rt2 H1 H2 Hname.
    apply list_elem_of_In in H1, H2.
    specialize (Hall rt1 H1). rewrite forallb_forall in Hall.
    specialize (Hall rt2 H2).
    apply String.eqb_eq in Hname. rewrite Hname in Hall.
    now apply Nat.eqb_eq in Hall.
  - intros Hagree rt1 H1. apply forallb_forall. intros rt2 H2.
    destruct (String.eqb (bp_func rt1) (bp_func rt2)) eqn:Hname; [|reflexivity].
    apply Nat.eqb_eq. apply Hagree.
    + now apply list_elem_of_In.
    + now apply list_elem_of_In.
    + now apply String.eqb_eq.
Qed.

Lemma existsb_false_elem {A} (f : A -> bool) (l : list A) :
  existsb f l = false -> forall x, x ∈ l -> f x = false.
Proof.
  induction l as [|a l IH]; intros Hex x Hin.
  - now apply elem_of_nil in Hin.
  - cbn in Hex. apply orb_false_iff in Hex as [Ha Hl].
    apply elem_of_cons in Hin as [->|Hin]; [done | now apply IH].
Qed.

Lemma existsb_false_intro {A} (f : A -> bool) (l : list A) :
  (forall x, x ∈ l -> f x = false) -> existsb f l = false.
Proof.
  induction l as [|a l IH]; intros Hall; [reflexivity|].
  cbn. rewrite (Hall a) by left. apply IH. intros x Hx. apply Hall. now right.
Qed.

Section Framework.
Context `{PyStr}.

Lemma upper_GET : upper "GET" = "GET".
Proof. now rewrite upper_ascii. Qed.

Lemma auto_methods_GET : auto_methods ["GET"] = ["GET"; "HEAD"; "OPTIONS"].
Proof. unfold auto_methods. cbn [map]. rewrite upper_GET. reflexivity. Qed.


(** [add_url_rule] in full: it binds the endpoint, or raises when the
    endpoint belongs to another function. *)
Lemma add_url_rule_run r ep v ms app log :
  add_url_rule r ep v ms app log =
  let bound :=
    set_view_functions (<[ep := v]> (view_functions app))
      (set_url_map (url_map app ++ [mkRule r (auto_methods ms) ep]) app) in
  match view_functions app !! ep with
  | Some old => if decide (old = v) then (Return bound, log)
                else (Raise (AssertionError ep), log)
  | None => (Return bound, log)
  end.
Proof.
  unfold add_url_rule. cbn [set_url_map view_functions].
  destruct (view_functions app !! ep) as [old|]; [|reflexivity].
  destruct (decide (old = v)); reflexivity.
Qed.

Lemma add_url_rule_unbound r ep v ms app log :
  view_functions app !! ep = None ->
  add_url_rule r ep v ms app log =
  (Return (set_view_functions (<[ep := v]> (view_functions app))
             (set_url_map (url_map app ++ [mkRule r (auto_methods ms) ep]) app)),
   log).
Proof. intros Hnone. rewrite add_url_rule_run, Hnone. reflexivity. Qed.

(** One route of the blueprint: added, or refused. *)
Lemma add_blueprint_route_run bp p rt app log :
  add_url_rule (prefixed p (bp_rule rt)) (bp_endpoint bp rt)
    (fn_blueprint (bp_view rt)) (bp_methods rt) app log =
  match view_functions app !! bp_endpoint bp rt with
  | Some old => if decide (old = fn_blueprint (bp_view rt))
                then (Return (mount_route bp p app rt), log)
                else (Raise (AssertionError (bp_endpoint bp rt)), log)
  | None => (Return (mount_route bp p app rt), log)
  end.
Proof. rewrite add_url_rule_run. reflexivity. Qed.

(** Registering the routes writes nothing to the log, and raises nothing
    but an [AssertionError]. *)
Lemma add_blueprint_routes_outcome bp p rts : forall app log,
  (exists app', add_blueprint_routes bp p rts app log = (Return app', log)) \/
  (exists ep, add_blueprint_routes bp p rts app log = (Raise (AssertionError ep), log)).
Proof.
  induction rts as [|rt rts IH]; intros app log.
  - left. now exists app.
  - cbn [add_blueprint_routes]. unfold bind. rewrite add_blueprint_route_run.
    destruct (view_functions app !! bp_endpoint bp rt) as [old|].
    + destruct (decide (old = fn_blueprint (bp_view rt))).
      * apply IH.
      * right. now eexists.
    + apply IH.
Qed.

(** When the routes register, the application is the mounted one. *)
Lemma add_blueprint_routes_Return bp p rts : forall app log app' log',
  add_blueprint_routes bp p rts app log = (Return app', log') ->
  app' = mount bp p rts app.
Proof.
  induction rts as [|rt rts IH]; intros app log app' log' Hrun.
  - cbn in Hrun. unfold ret in Hrun. now injection Hrun as <- _.
  - cbn [add_blueprint_routes] in Hrun. unfold bind in Hrun.
    rewrite add_blueprint_route_run in Hrun. cbn [mount foldl].
    destruct (view_functions app !! bp_endpoint bp rt) as [old|].
    + destruct (decide (old = fn_blueprint (bp_view rt))); [|discriminate].
      now apply IH in Hrun.
    + now apply IH in Hrun.
Qed.

(** When the routes register, a binding made before is still there. *)
Lemma add_blueprint_routes_keeps bp p rts ep v : forall app log app' log',
  add_blueprint_routes bp p rts app log = (Return app', log') ->
  view_functions app !! ep = Some v ->
  view_functions app' !! ep = Some v.
Proof.
  induction rts as [|rt rts IH]; intros app log app' log' Hrun Hbound.
  - cbn in Hrun. unfold ret in Hrun. now injection Hrun as <- _.
  - cbn [add_blueprint_routes] in Hrun. unfold bind in Hrun.
    rewrite add_blueprint_route_run in Hrun.
    assert (Hstep : view_functions app !! bp_endpoint bp rt = None \/
                    view_functions app !! bp_endpoint bp rt
                    = Some (fn_blueprint (bp_view rt)) ->
                    view_functions (mount_route bp p app rt) !! ep = Some v).
    { intros Hcase. unfold mount_route.
      cbn [set_view_functions set_url_map view_functions].
      destruct (decide (bp_endpoint bp rt = ep)) as [<-|Hne].
      - destruct Hcase as [Hc|Hc]; rewrite Hc in Hbound; [discriminate|].
        rewrite lookup_insert_eq. exact Hbound.
      - now rewrite lookup_insert_ne. }
    destruct (view_functions app !! bp_endpoint bp rt) as [old|] eqn:Hlk.
    + destruct (decide (old = fn_blueprint (bp_view rt))) as [->|]; [|discriminate].
      eapply IH; [exact Hrun|]. apply Hstep. now right.
    + eapply IH; [exact Hrun|]. apply Hstep. now left.
Qed.

(** When the routes register, each is bound to its own function. *)
Lemma add_blueprint_routes_binds bp p rts : forall app log app' log' rt,
  add_blueprint_routes bp p rts app log = (Return app', log') ->
  rt ∈ rts ->
  view_functions app' !! bp_endpoint bp rt = Some (fn_blueprint (bp_view rt)).
Proof.
  induction rts as [|rt0 rts IH]; intros app log app' log' rt Hrun Hin.
  - now apply elem_of_nil in Hin.
  - cbn [add_blueprint_routes] in Hrun. unfold bind in Hrun.
    rewrite add_blueprint_route_run in Hrun.
    assert (Hrest : add_blueprint_routes bp p rts (mount_route bp p app rt0) log
                    = (Return app', log')).
    { destruct (view_functions app !! bp_endpoint bp rt0) as [old|]; [|exact Hrun].
      destruct (decide (old = fn_blueprint (bp_view rt0))); [exact Hrun|discriminate]. }
    apply elem_of_cons in Hin as [->|Hin].
    + eapply add_blueprint_routes_keeps; [exact Hrest|].
      unfold mount_route. cbn [set_view_functions set_url_map view_functions].
      apply lookup_insert_eq.
    + eapply IH; [exact Hrest | exact Hin].
Qed.

(** The routes register when no endpoint already bound, and no two routes,
    disagree on a function. *)
Lemma add_blueprint_routes_returns bp p rts : forall app log,
  (forall rt v, rt ∈ rts -> view_functions app !! bp_endpoint bp rt = Some v ->
                v = fn_blueprint (bp_view rt)) ->
  (forall rt1 rt2, rt1 ∈ rts -> rt2 ∈ rts ->
                   bp_func rt1 = bp_func rt2 -> bp_view rt1 = bp_view rt2) ->
  add_blueprint_routes bp p rts app log = (Return (mount bp p rts app), log).
Proof.
  induction rts as [|rt rts IH]; intros app log Hbound Hagree.
  - reflexivity.
  - cbn [add_blueprint_routes mount foldl]. unfold bind.
    rewrite add_blueprint_route_run.
    assert (Hnext : add_blueprint_routes bp p rts (mount_route bp p app rt) log
                    = (Return (mount bp p rts (mount_route bp p app rt)), log)).
    { apply IH.
      - intros rt' v Hin Hlk. unfold mount_route in Hlk.
        cbn [set_view_functions set_url_map view_functions] in Hlk.
        destruct (decide (bp_endpoint bp rt = bp_endpoint bp rt')) as [Heq|Hne].
        + rewrite Heq, lookup_insert_eq in Hlk. injection Hlk as <-.
          f_equal. apply Hagree; [left | now right | now apply (bp_endpoint_inj bp)].
        + rewrite lookup_insert_ne in Hlk by done. apply (Hbound rt' v); [now right|done].
      - intros rt1 rt2 H1 H2. apply Hagree; now right. }
    destruct (view_functions app !! bp_endpoint bp rt) as [old|] eqn:Hlk.
    + rewrite (Hbound rt old) by (left || done).
      destruct (decide (fn_blueprint (bp_view rt) = fn_blueprint (bp_view rt)));
        [exact Hnext | contradiction].
    + exact Hnext.
Qed.

Lemma mount_frame bp p rts : forall app,
  import_name (mount bp p rts app) = import_name app /\
  config (mount bp p rts app) = config app /\
  extensions (mount bp p rts app) = extensions app /\
  blueprints (mount bp p rts app) = blueprints app.
Proof.
  induction rts as [|rt rts IH]; intros app; [easy|].
  cbn [mount foldl]. destruct (IH (mount_route bp p app rt)) as (H1 & H2 & H3 & H4).
  unfold mount in *. rewrite H1, H2, H3, H4. easy.
Qed.

Lemma mount_url_map bp p rts : forall app,
  url_map (mount bp p rts app) =
  url_map app ++ map (fun rt => mkRule (prefixed p (bp_rule rt))
                                       (auto_methods (bp_methods rt))
                                       (bp_endpoint bp rt)) rts.
Proof.
  induction rts as [|rt rts IH]; intros app.
  - cbn. now rewrite app_nil_r.
  - cbn [mount foldl map]. unfold mount in IH. rewrite IH.
    cbn [mount_route set_view_functions set_url_map url_map].
    now rewrite <- app_assoc.
Qed.

Lemma mount_plain_endpoint bp p rts name : forall app,
  contains_dot name = false ->
  view_functions (mount bp p rts app) !! name = view_functions app !! name.
Proof.
  induction rts as [|rt rts IH]; intros app Hname; [easy|].
  cbn [mount foldl]. unfold mount in IH. rewrite IH by done.
  cbn [mount_route set_view_functions set_url_map view_functions].
  apply lookup_insert_ne. now apply bp_endpoint_not_plain.
Qed.


(** Matching skips a front part none of whose rules fits. *)
Lemma match_rules_skip path meth (front back : list Rule) : forall seen,
  (forall r, r ∈ front ->
     String.eqb (rule r) path && bool_decide (upper meth ∈ methods r) = false) ->
  exists seen', match_rules path meth seen (front ++ back)
                = match_rules path meth seen' back.
Proof.
  induction front as [|r front IH]; intros seen Hno.
  - exists seen. reflexivity.
  - cbn [app match_rules].
    assert (Hr : String.eqb (rule r) path && bool_decide (upper meth ∈ methods r) = false)
      by (apply Hno; left).
    assert (Hrest : forall r', r' ∈ front ->
              String.eqb (rule r') path && bool_decide (upper meth ∈ methods r') = false)
      by (intros r' Hin; apply Hno; now right).
    destruct (String.eqb (rule r) path); cbn in Hr.
    + rewrite Hr. now apply IH.
    + now apply IH.
Qed.


(** A match in a map made of two parts comes from a rule of the front
    part or from matching the back part. *)
Lemma match_rules_app_Matched path meth ep (front back : list Rule) : forall seen,
  match_rules path meth seen (front ++ back) = Matched ep ->
  (exists r, r ∈ front /\ endpoint r = ep) \/
  (exists seen', match_rules path meth seen' back = Matched ep).
Proof.
  induction front as [|r front IH]; intros seen Hm.
  - right. now exists seen.
  - cbn [app match_rules] in Hm.
    destruct (String.eqb (rule r) path).
    + destruct (bool_decide (upper meth ∈ methods r)).
      * injection Hm as <-. left. exists r. split; [left | done].
      * destruct (IH _ Hm) as [(r' & Hin & Hep)|Hback]; [left|now right].
        exists r'. split; [now right | done].
    + destruct (IH _ Hm) as [(r' & Hin & Hep)|Hback]; [left|now right].
      exists r'. split; [now right | done].
Qed.

Lemma blueprint_rules_elem bp p r :
  r ∈ blueprint_rules bp p ->
  exists rt, rt ∈ bp_routes bp /\
    r = mkRule (prefixed p (bp_rule rt)) (auto_methods (bp_methods rt)) (bp_endpoint bp rt).
Proof.
  unfold blueprint_rules. intros Hin. apply list_elem_of_fmap in Hin as (rt & -> & Hrt).
  now exists rt.
Qed.

(** A blueprint that does not answer a path, trailing slashes aside, does
    not claim it. *)
Lemma blueprint_answers_claims bp p path :
  blueprint_answers bp p path = false -> blueprint_claims bp p path = false.
Proof.
  unfold blueprint_answers, blueprint_claims. intros Hno.
  apply existsb_false_intro. intros r Hin.
  pose proof (existsb_false_elem _ _ Hno r Hin) as Hr. cbn in Hr.
  destruct (String.eqb (rule r) path) eqn:Hp; [|reflexivity].
  apply String.eqb_eq in Hp. rewrite Hp, String.eqb_refl in Hr. exact Hr.
Qed.

(** The own rules never hand a request to [api_index]: whatever fits its
    rule fits the rule of [index] first. *)
Lemma own_rules_never_api_index path meth seen :
  match_rules path meth seen own_rules <> Matched "api_index".
Proof.
  unfold own_rules. cbn [match_rules rule methods endpoint].
  destruct (bool_decide (upper meth ∈ ["GET"; "HEAD"; "OPTIONS"]));
    destruct (String.eqb "/" path); destruct (String.eqb "/health" path);
    destruct seen; discriminate.
Qed.

End Framework.

(** ** Running computations step by step *)

Lemma bind_Return {E St A B} (m : Py E St A) (k : A -> Py E St B) s a s' :
  m s = (Return a, s') -> bind m k s = k a s'.
Proof. intros Hm. unfold bind. now rewrite Hm. Qed.

Lemma bind_Raise {E St A B} (m : Py E St A) (k : A -> Py E St B) s e s' :
  m s = (Raise e, s') -> bind m k s = (Raise e, s').
Proof. intros Hm. unfold bind. now rewrite Hm. Qed.

Section Steps.
Context `{PyStr}.

Lemma Flask_new_runs default_config name log :
  Flask_new default_config name log
  = (Return (mkFlask name default_config [] [] [] ∅), log ++ [EvFlask name]).
Proof. reflexivity. Qed.

Lemma app_config_getitem_found app_config env_name obj log :
  app_config !! env_name = Some obj ->
  app_config_getitem app_config env_name log
  = (Return obj, log ++ [EvConfigLookup env_name]).
Proof.
  intros Hreg. unfold app_config_getitem, tell, modify, bind. now rewrite Hreg.
Qed.

Lemma app_config_getitem_missing app_config env_name log :
  app_config !! env_name = None ->
  app_config_getitem app_config env_name log
  = (Raise (KeyError env_name), log ++ [EvConfigLookup env_name]).
Proof.
  intros Hreg. unfold app_config_getitem, tell, modify, bind. now rewrite Hreg.
Qed.

Lemma config_from_object_runs obj app log :
  config_from_object obj app log
  = (Return (set_config (from_object obj (config app)) app), log ++ [EvFromObject]).
Proof. reflexivity. Qed.

Lemma init_app_succeeds db app log :
  init_raises db app = None ->
  init_app db app log
  = (Return (set_extensions (extensions app ++ ["sqlalchemy"])
               (set_config (config app ∪ init_defaults db) app)),
     log ++ [EvDbInitApp]).
Proof.
  intros Hinit. unfold init_app, tell, modify, bind. now rewrite Hinit.
Qed.

Lemma init_app_fails db app log e :
  init_raises db app = Some e ->
  init_app db app log = (Raise (InitError e), log ++ [EvDbInitApp]).
Proof.
  intros Hinit. unfold init_app, tell, modify, bind. now rewrite Hinit.
Qed.

(** Registering a blueprint on an application that has none and binds no
    endpoint: the routes are mounted, or two of them clash. *)
Lemma register_blueprint_fresh bp p app log :
  blueprints app = [] ->
  view_functions app = ∅ ->
  (bp_consistent bp = true ->
   register_blueprint bp p app log
   = (Return (mount bp p (bp_routes bp)
                (set_blueprints (blueprints app ++ [bp_name bp]) app)),
      log ++ [EvRegisterBlueprint (bp_name bp) p])) /\
  (bp_consistent bp = false ->
   exists ep, register_blueprint bp p app log
              = (Raise (AssertionError ep),
                 log ++ [EvRegisterBlueprint (bp_name bp) p])).
Proof.
  intros Hnone Hviews.
  assert (Hstart : register_blueprint bp p app log
                   = add_blueprint_routes bp p (bp_routes bp)
                       (set_blueprints (blueprints app ++ [bp_name bp]) app)
                       (log ++ [EvRegisterBlueprint (bp_name bp) p])).
  { unfold register_blueprint, tell, modify, bind. rewrite Hnone.
    rewrite bool_decide_eq_false_2 by apply not_elem_of_nil. reflexivity. }
  split.
  - intros Hcons. rewrite Hstart. apply add_blueprint_routes_returns.
    + intros rt v _ Hlk. cbn in Hlk. rewrite Hviews, lookup_empty in Hlk. discriminate.
    + now apply bp_consistent_spec.
  - intros Hclash. rewrite Hstart.
    destruct (add_blueprint_routes_outcome bp p (bp_routes bp)
                (set_blueprints (blueprints app ++ [bp_name bp]) app)
                (log ++ [EvRegisterBlueprint (bp_name bp) p]))
      as [(app' & Hret)|(ep & Hraise)].
    + exfalso. assert (Hcons : bp_consistent bp = true); [|congruence].
      apply bp_consistent_spec. intros rt1 rt2 H1 H2 Hname.
      pose proof (add_blueprint_routes_binds _ _ _ _ _ _ _ rt1 Hret H1) as B1.
      pose proof (add_blueprint_routes_binds _ _ _ _ _ _ _ rt2 Hret H2) as B2.
      unfold bp_endpoint in B1, B2. rewrite Hname in B1. congruence.
    + now exists ep.
Qed.

Lemma route_runs r ms name v app log :
  view_functions app !! name = None ->
  route r ms name v app log
  = (Return (set_view_functions (<[name := v]> (view_functions app))
               (set_url_map (url_map app ++ [mkRule r (auto_methods ms) name]) app)),
     log ++ [EvRoute r name]).
Proof.
  intros Hnone. unfold route, tell, modify, bind.
  now apply add_url_rule_unbound.
Qed.

End Steps.

(** ** The factory, run *)

Section CreateApp.
Context `{PyStr}.
Variable __name__ : string.
Variable default_config : gmap string PyVal.
Variable app_config : gmap string (gmap string PyVal).
Variable db : SQLAlchemy.
Variable people : Blueprint.

Local Abbreviation run := (run_create_app __name__ default_config app_config db people).
Local Abbreviation app_before_db := (configured __name__ default_config).
Local Abbreviation app_wired := (wired __name__ default_config db people).
Local Abbreviation trace := (full_trace __name__ people).

(** A call with a registered name on which [db.init_app] succeeds and the
    blueprint registers returns the wired application after the eight
    effects, in order. *)
Lemma create_app_runs env_name obj :
  app_config !! env_name = Some obj ->
  init_raises db (app_before_db obj) = None ->
  bp_consistent people = true ->
  run env_name = (Return (app_wired obj), trace env_name).
Proof.
  intros Hreg Hinit Hcons.
  unfold run_create_app, create_app.
  erewrite bind_Return by apply Flask_new_runs.
  erewrite bind_Return by (apply app_config_getitem_found, Hreg).
  erewrite bind_Return by apply config_from_object_runs.
  erewrite bind_Return by (apply init_app_succeeds, Hinit).
  erewrite bind_Return.
  2:{ match goal with |- register_blueprint ?bp ?p ?a ?l = _ =>
        destruct (register_blueprint_fresh bp p a l eq_refl eq_refl) as [Hrun _] end.
      exact (Hrun Hcons). }
  erewrite bind_Return.
  2:{ apply route_runs. rewrite mount_plain_endpoint by reflexivity.
      cbn. apply lookup_empty. }
  erewrite bind_Return.
  2:{ apply route_runs. cbn [set_view_functions set_url_map view_functions].
      rewrite lookup_insert_ne by discriminate.
      rewrite mount_plain_endpoint by reflexivity. cbn. apply lookup_empty. }
  erewrite bind_Return.
  2:{ apply route_runs. cbn [set_view_functions set_url_map view_functions].
      rewrite !lookup_insert_ne by discriminate.
      rewrite mount_plain_endpoint by reflexivity. cbn. apply lookup_empty. }
  unfold ret. f_equal. f_equal.
  unfold wired, mounted, own_rules. rewrite auto_methods_GET.
  cbn [set_view_functions set_url_map set_blueprints set_extensions set_config
       import_name config extensions blueprints url_map view_functions app].
  rewrite <- !app_assoc. reflexivity.
Qed.

(** A call with a name the registry does not have stops at the lookup. *)
Lemma create_app_lookup_fails env_name :
  app_config !! env_name = None ->
  run env_name
  = (Raise (KeyError env_name), [EvFlask __name__; EvConfigLookup env_name]).
Proof.
  intros Hreg. unfold run_create_app, create_app.
  erewrite bind_Return by apply Flask_new_runs.
  erewrite bind_Raise by (apply app_config_getitem_missing, Hreg).
  reflexivity.
Qed.

(** A failure of [db.init_app] leaves the factory as it is. *)
Lemma create_app_db_init_fails env_name obj e :
  app_config !! env_name = Some obj ->
  init_raises db (app_before_db obj) = Some e ->
  run env_name
  = (Raise (InitError e),
     [EvFlask __name__; EvConfigLookup env_name; EvFromObject; EvDbInitApp]).
Proof.
  intros Hreg Hinit. unfold run_create_app, create_app.
  erewrite bind_Return by apply Flask_new_runs.
  erewrite bind_Return by (apply app_config_getitem_found, Hreg).
  erewrite bind_Return by apply config_from_object_runs.
  erewrite bind_Raise by (apply init_app_fails, Hinit).
  reflexivity.
Qed.

(** A clash between two routes of the blueprint leaves the factory as an
    [AssertionError], before any of the three routes is registered. *)
Lemma create_app_blueprint_clash env_name obj :
  app_config !! env_name = Some obj ->
  init_raises db (app_before_db obj) = None ->
  bp_consistent people = false ->
  exists ep,
    run env_name
    = (Raise (AssertionError ep),
       [EvFlask __name__; EvConfigLookup env_name; EvFromObject; EvDbInitApp;
        EvRegisterBlueprint (bp_name people) "/"]).
Proof.
  intros Hreg Hinit Hclash. unfold run_create_app, create_app.
  erewrite bind_Return by apply Flask_new_runs.
  erewrite bind_Return by (apply app_config_getitem_found, Hreg).
  erewrite bind_Return by apply config_from_object_runs.
  erewrite bind_Return by (apply init_app_succeeds, Hinit).
  destruct (register_blueprint_fresh people "/"
              (set_extensions (extensions (app_before_db obj) ++ ["sqlalchemy"])
                 (set_config (config (app_before_db obj) ∪ init_defaults db)
                    (app_before_db obj)))
              ([] ++ [EvFlask __name__] ++ [EvConfigLookup env_name]
                  ++ [EvFromObject] ++ [EvDbInitApp]) eq_refl eq_refl)
    as [_ Hraise].
  destruct (Hraise Hclash) as (ep & Hrun). exists ep.
  erewrite bind_Raise by exact Hrun. reflexivity.
Qed.

(** What a call that returns has gone through. *)
Lemma create_app_Return env_name app log :
  run env_name = (Return app, log) ->
  exists obj,
    app_config !! env_name = Some obj /\
    init_raises db (app_before_db obj) = None /\
    bp_consistent people = true /\
    app = app_wired obj /\
    log = trace env_name.
Proof.
  intros Hrun.
  destruct (app_config !! env_name) as [obj|] eqn:Hreg.
  - destruct (init_raises db (app_before_db obj)) as [e|] eqn:Hinit.
    + rewrite (create_app_db_init_fails _ _ _ Hreg Hinit) in Hrun. discriminate.
    + destruct (bp_consistent people) eqn:Hcons.
      * rewrite (create_app_runs _ _ Hreg Hinit Hcons) in Hrun.
        injection Hrun as <- <-. now exists obj.
      * destruct (create_app_blueprint_clash _ _ Hreg Hinit Hcons) as (ep & Hraise).
        rewrite Hraise in Hrun. discriminate.
  - rewrite (create_app_lookup_fails _ Hreg) in Hrun. discriminate.
Qed.

(** *** The wired application *)

Lemma wired_url_map obj :
  url_map (app_wired obj) = blueprint_rules people "/" ++ own_rules.
Proof.
  unfold wired, mounted. cbn [url_map]. now rewrite mount_url_map.
Qed.

Lemma wired_own_views obj :
  view_functions (app_wired obj) !! "index" = Some fn_index /\
  view_functions (app_wired obj) !! "health_check" = Some fn_health_check /\
  view_functions (app_wired obj) !! "api_index" = Some fn_api_index.
Proof.
  unfold wired. cbn [view_functions]. repeat split.
  - rewrite !lookup_insert_ne by discriminate. apply lookup_insert_eq.
  - rewrite lookup_insert_ne by discriminate. apply lookup_insert_eq.
  - apply lookup_insert_eq.
Qed.

Lemma wired_frame obj :
  import_name (app_wired obj) = __name__ /\
  config (app_wired obj) = from_object obj default_config ∪ init_defaults db /\
  extensions (app_wired obj) = ["sqlalchemy"] /\
  blueprints (app_wired obj) = [bp_name people].
Proof.
  unfold wired, mounted.
  cbn [import_name config extensions blueprints].
  match goal with |- context [mount ?bp ?p ?rts ?a] =>
    destruct (mount_frame bp p rts a) as (-> & -> & -> & ->) end.
  easy.
Qed.

(** The configuration of the wired application, key by key. *)
Lemma wired_config_lookup obj k :
  config (app_wired obj) !! k =
  match (if isupper k then obj !! k else None) with
  | Some v => Some v
  | None =>
      match default_config !! k with
      | Some v => Some v
      | None => init_defaults db !! k
      end
  end.
Proof.
  destruct (wired_frame obj) as (_ & -> & _). unfold from_object.
  assert (Hfilter : filter (fun kv : string * PyVal => isupper kv.1 = true) obj !! k
                    = if isupper k then obj !! k else None).
  { destruct (isupper k) eqn:Hup.
    - destruct (obj !! k) as [v|] eqn:Hk.
      + apply map_lookup_filter_Some. split; [done|]. exact Hup.
      + apply map_lookup_filter_None. left. exact Hk.
    - apply map_lookup_filter_None. right. intros v _. cbn. congruence. }
  rewrite !lookup_union, Hfilter.
  destruct (if isupper k then obj !! k else None);
    destruct (default_config !! k); destruct (init_defaults db !! k); reflexivity.
Qed.



(** In a wired application a GET on [/] reaches the rule of [index], and
    a GET on [/health] the rule of [health_check], unless the blueprint
    claims the path. *)
Lemma wired_match_root obj :
  blueprint_claims people "/" "/" = false ->
  match_rules "/" "GET" false (url_map (app_wired obj)) = Matched "index".
Proof.
  intros Hfree. rewrite wired_url_map.
  destruct (match_rules_skip "/" "GET" (blueprint_rules people "/") own_rules false)
    as [seen Hskip].
  - rewrite upper_GET. now apply existsb_false_elem.
  - rewrite Hskip. unfold own_rules. cbn [match_rules rule methods endpoint].
    rewrite upper_GET. now destruct seen.
Qed.

Lemma wired_match_health obj :
  blueprint_claims people "/" "/health" = false ->
  match_rules "/health" "GET" false (url_map (app_wired obj)) = Matched "health_check".
Proof.
  intros Hfree. rewrite wired_url_map.
  destruct (match_rules_skip "/health" "GET" (blueprint_rules people "/") own_rules false)
    as [seen Hskip].
  - rewrite upper_GET. now apply existsb_false_elem.
  - rewrite Hskip. unfold own_rules. cbn [match_rules rule methods endpoint].
    rewrite upper_GET. now destruct seen.
Qed.

End CreateApp.

(** ** The health check *)

Section HealthCheck.
Context {S : Type} `{Session S}.

(** How the view runs, by the outcome of the probe. *)
Lemma health_check_run (app : Flask) (s : S) :
  health_check (mkWorld app s) =
  match execute "SELECT 1" s with
  | (Return _, s') => (Return (RetPair (PDict healthy_body) 200), mkWorld app s')
  | (Raise e, s') =>
      if exc_is_Exception e
      then (Return (RetPair (PDict (unhealthy_body e)) 503), mkWorld app s')
      else (Raise e, mkWorld app s')
  end.
Proof.
  unfold health_check, try_except, bind, session_execute, ret. cbn.
  destruct (execute "SELECT 1" s) as [[rows|e] s']; reflexivity.
Qed.

Lemma respond_run (view : Handler S ViewReturn) (w : World S) :
  respond view w =
  match view w with
  | (Return rv, w') => (Return (make_response rv), w')
  | (Raise e, w') => (Raise e, w')
  end.
Proof. reflexivity. Qed.

(** C2. When the probe [SELECT 1] succeeds, the health check answers with
    status 200 and the JSON object with exactly the three fields
    status = healthy, database = connected, service = titanic-api. *)
Theorem health_check_healthy (app : Flask) (s s' : S) (rows : list PyVal) :
  execute "SELECT 1" s = (Return rows, s') ->
  respond health_check (mkWorld app s)
  = (Return (mkResponse 200
               (Json (PDict [("status", PStr "healthy");
                             ("database", PStr "connected");
                             ("service", PStr "titanic-api")]))),
     mkWorld app s').
Proof.
  intros Hprobe. rewrite respond_run, health_check_run, Hprobe. reflexivity.
Qed.

(** C3 (amended). When the probe raises an exception [e] of class
    [Exception], the health check catches it and answers with status 503
    and the JSON object status = unhealthy, database = disconnected,
    error = str(e); the session is left as the single failed execution
    left it, so the probe is not run again. *)
Theorem health_check_unhealthy (app : Flask) (s s' : S) (e : PyExc) :
  execute "SELECT 1" s = (Raise e, s') ->
  exc_is_Exception e = true ->
  respond health_check (mkWorld app s)
  = (Return (mkResponse 503
               (Json (PDict [("status", PStr "unhealthy");
                             ("database", PStr "disconnected");
                             ("error", PStr (str e))]))),
     mkWorld app s').
Proof.
  intros Hprobe Hexc. rewrite respond_run, health_check_run, Hprobe, Hexc.
  reflexivity.
Qed.

(** C4 (amended). When the probe raises an exception [e] of class
    [Exception], the 503 body has status = unhealthy and its error field
    is the string str(e); that string is non-empty exactly when str(e)
    is. *)
Theorem health_check_error_field (app : Flask) (s s' : S) (e : PyExc) :
  execute "SELECT 1" s = (Raise e, s') ->
  exc_is_Exception e = true ->
  exists resp,
    fst (respond health_check (mkWorld app s)) = Return resp /\
    status_code resp = 503 /\
    body_field "status" resp = Some (PStr "unhealthy") /\
    body_field "error" resp = Some (PStr (str e)) /\
    (forall msg, body_field "error" resp = Some (PStr msg) ->
                 (msg <> "" <-> str e <> "")).
Proof.
  intros Hprobe Hexc. eexists. split.
  - rewrite respond_run, health_check_run, Hprobe, Hexc. reflexivity.
  - repeat split; intros; cbn in *; congruence.
Qed.

(** C8. The health check changes nothing but the session, and the session
    only by the one execution of [SELECT 1]: the application object and
    its configuration are the same afterwards, and whatever the probe
    leaves untouched in the database (its contents, when the probe is
    read-only) is untouched by the request, whether the probe returned or
    raised. *)
Theorem health_check_frame {C : Type} (contents : S -> C) (w : World S) :
  (forall s, contents (snd (execute "SELECT 1" s)) = contents s) ->
  let w' := snd (health_check w) in
  w' = mkWorld (w_app w) (snd (execute "SELECT 1" (w_session w))) /\
  w_app w' = w_app w /\
  config (w_app w') = config (w_app w) /\
  contents (w_session w') = contents (w_session w).
Proof.
  intros Hreadonly. destruct w as [app s]. cbn zeta. rewrite health_check_run.
  specialize (Hreadonly s). cbn [w_app w_session].
  destruct (execute "SELECT 1" s) as [[rows|e] s']; cbn in *.
  - easy.
  - destruct (exc_is_Exception e); easy.
Qed.

(** C9 (amended). The [except Exception] clause catches every exception
    of class [Exception] and nothing else, so a request ends in exactly one
    of three ways: the probe returns and the answer is the three-field
    healthy body with status 200; the probe raises an exception of class
    [Exception] and the answer is the three-field unhealthy body with
    status 503; or the probe raises something outside that class, which
    leaves the view.  Whenever the view returns, the status is 200 exactly
    when the body's status field is healthy. *)
Theorem health_check_outcomes (w : World S) :
  (((exists rows, fst (execute "SELECT 1" (w_session w)) = Return rows) /\
    fst (respond health_check w)
    = Return (mkResponse 200 (Json (PDict [("status", PStr "healthy");
                                           ("database", PStr "connected");
                                           ("service", PStr "titanic-api")]))))
   \/
   (exists e, fst (execute "SELECT 1" (w_session w)) = Raise e /\
              exc_is_Exception e = true /\
              fst (respond health_check w)
              = Return (mkResponse 503
                          (Json (PDict [("status", PStr "unhealthy");
                                        ("database", PStr "disconnected");
                                        ("error", PStr (str e))]))))
   \/
   (exists e, fst (execute "SELECT 1" (w_session w)) = Raise e /\
              exc_is_Exception e = false /\
              fst (respond health_check w) = Raise e))
  /\
  (forall resp, fst (respond health_check w) = Return resp ->
     (status_code resp = 200 <-> body_field "status" resp = Some (PStr "healthy"))).
Proof.
  destruct w as [app s]. cbn [w_session].
  rewrite respond_run, health_check_run.
  destruct (execute "SELECT 1" s) as [[rows|e] s']; cbn [fst].
  - split.
    + left. split; [now exists rows | reflexivity].
    + intros resp Hresp. injection Hresp as <-. easy.
  - destruct (exc_is_Exception e) eqn:Hexc; cbn [fst].
    + split.
      * right. left. now exists e.
      * intros resp Hresp. injection Hresp as <-. cbn. split; intros; discriminate.
    + split.
      * right. right. now exists e.
      * intros resp Hresp. discriminate.
Qed.

(** An exception that is not of class [Exception] is not caught by the
    [except Exception] clause and leaves the view. *)
Lemma health_check_reraises (app : Flask) (s s' : S) (e : PyExc) :
  execute "SELECT 1" s = (Raise e, s') ->
  exc_is_Exception e = false ->
  health_check (mkWorld app s) = (Raise e, mkWorld app s').
Proof.
  intros Hprobe Hexc. now rewrite health_check_run, Hprobe, Hexc.
Qed.

End HealthCheck.

(** ** The factory: results, failures and the order of effects *)

Section Factory.
Context `{PyStr}.
Variable __name__ : string.
Variable default_config : gmap string PyVal.
Variable app_config : gmap string (gmap string PyVal).
Variable db : SQLAlchemy.
Variable people : Blueprint.


(** C6. For a name the registry does not have, [create_app] raises the
    registry's [KeyError] for that name; nothing in the factory catches
    it, whatever the database handle and the blueprint are. *)
Theorem create_app_unknown_env_raises env_name :
  app_config !! env_name = None ->
  exists log,
    run_create_app __name__ default_config app_config db people env_name
    = (Raise (KeyError env_name), log).
Proof.
  intros Hreg. eexists. exact (create_app_lookup_fails _ _ _ _ _ _ Hreg).
Qed.


(** C10. When the lookup [app_config[env_name]] raises, [create_app]
    raises there: the only effects performed are the creation of the
    application object and the lookup, so [db.init_app] is not called,
    no blueprint is registered, no route is registered, and no
    application is returned. *)
Theorem create_app_bad_env_stops_before_wiring env_name :
  app_config !! env_name = None ->
  exists log,
    run_create_app __name__ default_config app_config db people env_name
    = (Raise (KeyError env_name), log) /\
    log = [EvFlask __name__; EvConfigLookup env_name] /\
    (EvDbInitApp ∉ log) /\
    (forall name prefix, EvRegisterBlueprint name prefix ∉ log) /\
    (forall r name, EvRoute r name ∉ log).
Proof.
  intros Hreg. eexists.
  split; [exact (create_app_lookup_fails _ _ _ _ _ _ Hreg)|].
  split; [reflexivity|].
  repeat split; intros;
    (intros Hin; repeat (apply elem_of_cons in Hin as [Hin|Hin]; [discriminate|]);
     now apply elem_of_nil in Hin).
Qed.

End Factory.

(** ** Beyond the listed claims: the factory *)

Section FactoryMore.
Context `{PyStr}.
Variable __name__ : string.
Variable default_config : gmap string PyVal.
Variable app_config : gmap string (gmap string PyVal).
Variable db : SQLAlchemy.
Variable people : Blueprint.


(** X2. When [db.init_app] raises, [create_app] raises that same
    exception: nothing catches it, the configuration has been looked up
    and applied before, and neither the blueprint nor any route is
    registered. *)
Theorem create_app_db_failure_propagates env_name obj e :
  app_config !! env_name = Some obj ->
  init_raises db (configured __name__ default_config obj) = Some e ->
  exists log,
    run_create_app __name__ default_config app_config db people env_name
    = (Raise (InitError e), log) /\
    log = [EvFlask __name__; EvConfigLookup env_name; EvFromObject; EvDbInitApp] /\
    (forall name prefix, EvRegisterBlueprint name prefix ∉ log) /\
    (forall r name, EvRoute r name ∉ log).
Proof.
  intros Hreg Hinit. eexists.
  split; [exact (create_app_db_init_fails _ _ _ _ _ _ _ _ Hreg Hinit)|].
  split; [reflexivity|].
  split; intros;
    (intros Hin; repeat (apply elem_of_cons in Hin as [Hin|Hin]; [discriminate|]);
     now apply elem_of_nil in Hin).
Qed.

(** X3. Whatever the arguments and the outcome, the effects [create_app]
    has performed are an initial part of the eight effects of a complete
    call, in that order; they are all eight exactly when it returns. *)
Theorem create_app_effects_in_order env_name :
  let result :=
    run_create_app __name__ default_config app_config db people env_name in
  let order :=
    [EvFlask __name__; EvConfigLookup env_name; EvFromObject; EvDbInitApp;
     EvRegisterBlueprint (bp_name people) "/";
     EvRoute "/" "index"; EvRoute "/health" "health_check";
     EvRoute "/" "api_index"] in
  snd result `prefix_of` order /\
  ((exists app, fst result = Return app) <-> snd result = order).
Proof.
  cbn zeta.
  destruct (app_config !! env_name) as [obj|] eqn:Hreg.
  - destruct (init_raises db (configured __name__ default_config obj))
      as [e|] eqn:Hinit.
    + rewrite (create_app_db_init_fails _ _ _ _ _ _ _ _ Hreg Hinit). cbn [fst snd].
      split; [eexists; reflexivity|].
      split; [intros (app & Happ); discriminate | intros Heq; discriminate].
    + destruct (bp_consistent people) eqn:Hcons.
      * rewrite (create_app_runs _ _ _ _ _ _ _ Hreg Hinit Hcons). cbn [fst snd].
        split; [reflexivity|]. split; [reflexivity | now eexists].
      * destruct (create_app_blueprint_clash _ _ _ _ _ _ _ Hreg Hinit Hcons)
          as (ep & ->).
        cbn [fst snd]. split; [eexists; reflexivity|].
        split; [intros (app & Happ); discriminate | intros Heq; discriminate].
  - rewrite (create_app_lookup_fails _ _ _ _ _ _ Hreg). cbn [fst snd].
    split; [eexists; reflexivity|].
    split; [intros (app & Happ); discriminate | intros Heq; discriminate].
Qed.

(** X4. In an application [create_app] returns, [api_index] is bound to
    its endpoint but no request is ever handed to it, whatever the path
    and the method: the rule of [index], registered before it for the
    same path and methods, is always found first. *)
Theorem api_index_never_dispatched env_name app log path meth :
  run_create_app __name__ default_config app_config db people env_name
  = (Return app, log) ->
  view_functions app !! "api_index" = Some fn_api_index /\
  match_rules path meth false (url_map app) <> Matched "api_index".
Proof.
  intros Hrun.
  destruct (create_app_Return _ _ _ _ _ _ _ _ Hrun) as (obj & _ & _ & _ & -> & _).
  split; [apply wired_own_views|].
  rewrite wired_url_map. intros Hm.
  apply match_rules_app_Matched in Hm as [(r & Hin & Hep)|(seen & Hback)].
  - apply blueprint_rules_elem in Hin as (rt & _ & ->). cbn in Hep.
    now apply (bp_endpoint_not_plain people rt "api_index").
  - now apply own_rules_never_api_index in Hback.
Qed.

(** X11. Only the upper-case attributes of the configuration object reach
    the application: under any other key the returned application has
    what Flask's defaults and the database handle's defaults give, whatever
    the object holds there. *)
Theorem config_ignores_other_attributes env_name app log k :
  run_create_app __name__ default_config app_config db people env_name
  = (Return app, log) ->
  isupper k = false ->
  config app !! k = (default_config ∪ init_defaults db) !! k.
Proof.
  intros Hrun Hk.
  destruct (create_app_Return _ _ _ _ _ _ _ _ Hrun) as (obj & _ & _ & _ & -> & _).
  rewrite wired_config_lookup, Hk, lookup_union.
  destruct (default_config !! k); destruct (init_defaults db !! k); reflexivity.
Qed.

End FactoryMore.

(** ** Beyond the listed claims: serving requests *)

Section ServingMore.
Context `{PyStr} {S : Type} `{Session S}.
Variable people_view : nat -> Handler S ViewReturn.
Variable __name__ : string.
Variable default_config : gmap string PyVal.
Variable app_config : gmap string (gmap string PyVal).
Variable db : SQLAlchemy.
Variable people : Blueprint.

(** X5. In every application [create_app] returns, unless the blueprint
    itself answers GET on [/], a GET on [/] runs [index]: the answer is
    status 200 with the welcome text, and neither the application nor the
    database session is touched. *)
Theorem created_app_root_runs_index env_name app log (s : S) :
  run_create_app __name__ default_config app_config db people env_name
  = (Return app, log) ->
  blueprint_answers people "/" "/" = false ->
  get people_view app "/" s
  = (Return (mkResponse 200 (Text welcome)), mkWorld app s).
Proof.
  intros Hrun Hfree. apply blueprint_answers_claims in Hfree.
  destruct (create_app_Return _ _ _ _ _ _ _ _ Hrun) as (obj & _ & _ & _ & -> & _).
  unfold get, dispatch_get. rewrite wired_match_root by done.
  destruct (wired_own_views __name__ default_config db people obj) as (-> & _).
  reflexivity.
Qed.

(** X6. In every application [create_app] returns, unless the blueprint
    itself answers GET on [/health] (with or without a trailing slash), a
    GET on [/health] runs [health_check] once: 200 with the healthy body
    when the probe returns, 503 with the unhealthy body when it raises an
    exception of class [Exception], and the exception itself when it
    raises anything else. *)
Theorem created_app_health_route env_name app log (s : S) :
  run_create_app __name__ default_config app_config db people env_name
  = (Return app, log) ->
  blueprint_answers people "/" "/health" = false ->
  get people_view app "/health" s
  = match execute "SELECT 1" s with
    | (Return _, s') =>
        (Return (mkResponse 200
                   (Json (PDict [("status", PStr "healthy");
                                 ("database", PStr "connected");
                                 ("service", PStr "titanic-api")]))),
         mkWorld app s')
    | (Raise e, s') =>
        if exc_is_Exception e
        then (Return (mkResponse 503
                        (Json (PDict [("status", PStr "unhealthy");
                                      ("database", PStr "disconnected");
                                      ("error", PStr (str e))]))),
              mkWorld app s')
        else (Raise e, mkWorld app s')
    end.
Proof.
  intros Hrun Hfree. apply blueprint_answers_claims in Hfree.
  destruct (create_app_Return _ _ _ _ _ _ _ _ Hrun) as (obj & _ & _ & _ & -> & _).
  unfold get, dispatch_get. rewrite wired_match_health by done.
  destruct (wired_own_views __name__ default_config db people obj) as (_ & -> & _).
  cbn [view_body]. rewrite respond_run, health_check_run.
  destruct (execute "SELECT 1" s) as [[rows|e] s']; [reflexivity|].
  destruct (exc_is_Exception e); reflexivity.
Qed.


(** X10. [health_check] raises exactly when the probe raises something
    that is not of class [Exception], and then it raises that same
    object: the [except Exception] clause lets it through. *)
Theorem health_check_raises_iff (app : Flask) (s : S) (e : PyExc) :
  fst (respond health_check (mkWorld app s)) = Raise e
  <->
  fst (execute "SELECT 1" s) = Raise e /\ exc_is_Exception e = false.
Proof.
  rewrite respond_run, health_check_run.
  destruct (execute "SELECT 1" s) as [[rows|e'] s']; cbn [fst].
  - split; [discriminate | intros [Hr _]; discriminate].
  - destruct (exc_is_Exception e') eqn:Hexc; cbn [fst].
    + split; [discriminate | intros [Hr He]; congruence].
    + split.
      * intros Hr. injection Hr as <-. done.
      * intros [Hr _]. injection Hr as <-. reflexivity.
Qed.

End ServingMore.

(** ** At the sample deployments *)

#[local] Existing Instance Sample.ascii_strings.

Lemma sample_run_returns :
  Sample.run "development"
  = (Return Sample.app, full_trace "src.app" Sample.people "development").
Proof. apply create_app_runs; reflexivity. Defined.


(** A blueprint route declared with [methods=["get"]] is registered for
    GET: with such a route on [/health], the blueprint's view answers, not
    [health_check]. *)
Lemma lower_case_method_is_served :
  url_map Faulty.lower_case_app
  = [mkRule "/health" ["GET"; "HEAD"; "OPTIONS"] "people_api.status";
     mkRule "/" ["GET"; "HEAD"; "OPTIONS"] "index";
     mkRule "/health" ["GET"; "HEAD"; "OPTIONS"] "health_check";
     mkRule "/" ["GET"; "HEAD"; "OPTIONS"] "api_index"] /\
  match_rules "/health" "GET" false (url_map Faulty.lower_case_app)
  = Matched "people_api.status".
Proof. split; reflexivity. Qed.

(** C1. On the application the factory returns for the sample deployment,
    a GET on [/] matches the rule of [index], the first of the two rules
    registered for the path, and is answered with status 200 and the
    welcome text; the JSON payload of [api_index] is not what is sent. *)
Theorem get_root_runs_index :
  fst (Sample.run "development") = Return Sample.app /\
  match_rules "/" "GET" false (url_map Sample.app) = Matched "index" /\
  view_functions Sample.app !! "index" = Some fn_index /\
  get Sample.people_view Sample.app "/" Sample.up
  = (Return (mkResponse 200 (Text welcome)), mkWorld Sample.app Sample.up) /\
  fst (get Sample.people_view Sample.app "/" Sample.up)
  <> fst (respond api_index (mkWorld Sample.app Sample.up)).
Proof.
  assert (Hfree : blueprint_claims Sample.people "/" "/" = false) by reflexivity.
  assert (Hmatch : match_rules "/" "GET" false (url_map Sample.app) = Matched "index")
    by now apply wired_match_root.
  assert (Hview : view_functions Sample.app !! "index" = Some fn_index)
    by apply wired_own_views.
  assert (Hget : get Sample.people_view Sample.app "/" Sample.up
                 = (Return (mkResponse 200 (Text welcome)),
                    mkWorld Sample.app Sample.up)).
  { unfold get, dispatch_get. rewrite Hmatch, Hview. reflexivity. }
  split; [|split; [|split; [|split]]].
  - now rewrite sample_run_returns.
  - exact Hmatch.
  - exact Hview.
  - exact Hget.
  - rewrite Hget. discriminate.
Qed.

(** C3, counterexample. A probe interrupted by [KeyboardInterrupt], which
    is not of class [Exception], is not caught: the view raises it and
    there is no 503 response. *)
Lemma health_check_keyboard_interrupt_not_caught :
  fst (execute "SELECT 1" (Sample.down Faulty.KeyboardInterrupt))
  = Raise Faulty.KeyboardInterrupt /\
  fst (respond health_check
         (mkWorld Sample.app (Sample.down Faulty.KeyboardInterrupt)))
  = Raise Faulty.KeyboardInterrupt /\
  (forall resp,
     fst (respond health_check
            (mkWorld Sample.app (Sample.down Faulty.KeyboardInterrupt)))
     <> Return resp).
Proof.
  split; [reflexivity|].
  assert (Hraise : fst (respond health_check
                          (mkWorld Sample.app (Sample.down Faulty.KeyboardInterrupt)))
                   = Raise Faulty.KeyboardInterrupt)
    by (rewrite respond_run, health_check_run; reflexivity).
  split; [exact Hraise|]. intros resp. rewrite Hraise. discriminate.
Qed.

(** C4, counterexample. A probe that fails with [AssertionError()], whose
    [str] is empty, gives a 503 body whose error field is the empty
    string. *)
Lemma health_check_error_can_be_empty :
  fst (execute "SELECT 1" (Sample.down Sample.BareAssertion))
  = Raise Sample.BareAssertion /\
  exc_is_Exception Sample.BareAssertion = true /\
  fst (respond health_check (mkWorld Sample.app (Sample.down Sample.BareAssertion)))
  = Return (mkResponse 503
              (Json (PDict [("status", PStr "unhealthy");
                            ("database", PStr "disconnected");
                            ("error", PStr "")]))) /\
  ~ (exists msg,
        body_field "error"
          (mkResponse 503
              (Json (PDict [("status", PStr "unhealthy");
                            ("database", PStr "disconnected");
                            ("error", PStr "")])))
        = Some (PStr msg) /\ msg <> "").
Proof.
  repeat split. intros (msg & Hmsg & Hne). cbn in Hmsg.
  apply Hne. congruence.
Qed.


(** C9, counterexample. A probe ended by [SystemExit], which is not of
    class [Exception], makes the view raise: the request has neither the
    healthy nor the unhealthy response. *)
Lemma health_check_system_exit_propagates :
  fst (execute "SELECT 1" (Sample.down Faulty.SystemExit)) = Raise Faulty.SystemExit /\
  fst (respond health_check (mkWorld Sample.app (Sample.down Faulty.SystemExit)))
  = Raise Faulty.SystemExit /\
  ~ (exists resp,
       fst (respond health_check (mkWorld Sample.app (Sample.down Faulty.SystemExit)))
       = Return resp).
Proof.
  split; [reflexivity|].
  assert (Hraise : fst (respond health_check
                          (mkWorld Sample.app (Sample.down Faulty.SystemExit)))
                   = Raise Faulty.SystemExit)
    by (rewrite respond_run, health_check_run; reflexivity).
  split; [exact Hraise|]. intros (resp & Hresp). rewrite Hraise in Hresp. discriminate.
Qed.

(** *** The theorems of the claims *)

Lemma health_check_healthy_witness :
  execute "SELECT 1" Sample.up
  = (Return [PInt 1], Sample.mkDemo None (Sample.rows Sample.up) ["SELECT 1"]) /\
  respond health_check (mkWorld Sample.app Sample.up)
  = (Return (mkResponse 200
               (Json (PDict [("status", PStr "healthy");
                             ("database", PStr "connected");
                             ("service", PStr "titanic-api")]))),
     mkWorld Sample.app (Sample.mkDemo None (Sample.rows Sample.up) ["SELECT 1"])).
Proof.
  split; [reflexivity|].
  apply (health_check_healthy Sample.app Sample.up _ [PInt 1]). reflexivity.
Defined.

Lemma health_check_unhealthy_witness :
  let s' := Sample.mkDemo (Some Sample.OperationalError)
              (Sample.rows Sample.up) ["SELECT 1"] in
  execute "SELECT 1" (Sample.down Sample.OperationalError)
  = (Raise Sample.OperationalError, s') /\
  exc_is_Exception Sample.OperationalError = true /\
  respond health_check (mkWorld Sample.app (Sample.down Sample.OperationalError))
  = (Return (mkResponse 503
               (Json (PDict [("status", PStr "unhealthy");
                             ("database", PStr "disconnected");
                             ("error", PStr "could not connect to server")]))),
     mkWorld Sample.app s').
Proof.
  cbn zeta. split; [reflexivity|]. split; [reflexivity|].
  apply (health_check_unhealthy Sample.app (Sample.down Sample.OperationalError)
           _ Sample.OperationalError); reflexivity.
Defined.

Lemma health_check_error_field_witness :
  exists resp,
    fst (respond health_check
           (mkWorld Sample.app (Sample.down Sample.OperationalError))) = Return resp /\
    status_code resp = 503 /\
    body_field "status" resp = Some (PStr "unhealthy") /\
    body_field "error" resp = Some (PStr "could not connect to server") /\
    (forall msg, body_field "error" resp = Some (PStr msg) ->
                 (msg <> "" <-> str Sample.OperationalError <> "")).
Proof.
  apply (health_check_error_field Sample.app (Sample.down Sample.OperationalError)
           (Sample.mkDemo (Some Sample.OperationalError) (Sample.rows Sample.up)
              ["SELECT 1"])
           Sample.OperationalError); reflexivity.
Defined.

Lemma health_check_frame_witness :
  (forall s, Sample.rows (snd (execute "SELECT 1" s)) = Sample.rows s) /\
  let w := mkWorld Sample.app (Sample.down Sample.OperationalError) in
  let w' := snd (health_check w) in
  w' = mkWorld (w_app w) (snd (execute "SELECT 1" (w_session w))) /\
  w_app w' = w_app w /\
  config (w_app w') = config (w_app w) /\
  Sample.rows (w_session w') = Sample.rows (w_session w).
Proof.
  split; [intros s; reflexivity|].
  apply (health_check_frame Sample.rows
           (mkWorld Sample.app (Sample.down Sample.OperationalError))).
  intros s; reflexivity.
Defined.


Lemma create_app_unknown_env_raises_witness :
  Sample.registry !! "staging" = None /\
  exists log, Sample.run "staging" = (Raise (KeyError "staging"), log).
Proof.
  split; [reflexivity|].
  apply (create_app_unknown_env_raises "src.app" ∅ Sample.registry Sample.db
           Sample.people "staging"). reflexivity.
Defined.


Lemma create_app_bad_env_stops_before_wiring_witness :
  Sample.registry !! "staging" = None /\
  exists log,
    Sample.run "staging" = (Raise (KeyError "staging"), log) /\
    log = [EvFlask "src.app"; EvConfigLookup "staging"] /\
    (EvDbInitApp ∉ log) /\
    (forall name prefix, EvRegisterBlueprint name prefix ∉ log) /\
    (forall r name, EvRoute r name ∉ log).
Proof.
  split; [reflexivity|].
  apply (create_app_bad_env_stops_before_wiring "src.app" ∅ Sample.registry
           Sample.db Sample.people "staging"). reflexivity.
Defined.

(** *** The further theorems *)

Lemma create_app_db_failure_propagates_witness :
  Sample.registry !! "development" = Some Sample.development /\
  init_raises Faulty.db (configured "src.app" ∅ Sample.development)
  = Some Faulty.NoDatabaseUri /\
  exists log,
    Faulty.run "development" = (Raise (InitError Faulty.NoDatabaseUri), log) /\
    log = [EvFlask "src.app"; EvConfigLookup "development"; EvFromObject;
           EvDbInitApp] /\
    (forall name prefix, EvRegisterBlueprint name prefix ∉ log) /\
    (forall r name, EvRoute r name ∉ log).
Proof.
  split; [reflexivity|]. split; [reflexivity|].
  apply (create_app_db_failure_propagates "src.app" ∅ Sample.registry Faulty.db
           Sample.people "development" Sample.development Faulty.NoDatabaseUri);
    reflexivity.
Defined.

Lemma api_index_never_dispatched_witness :
  view_functions Sample.app !! "api_index" = Some fn_api_index /\
  match_rules "/" "GET" false (url_map Sample.app) <> Matched "api_index".
Proof.
  apply (api_index_never_dispatched "src.app" ∅ Sample.registry Sample.db
           Sample.people "development" Sample.app
           (full_trace "src.app" Sample.people "development") "/" "GET").
  exact sample_run_returns.
Defined.

Lemma config_ignores_other_attributes_witness :
  Sample.development !! "secret" = Some (PStr "x") /\
  isupper "secret" = false /\
  config Sample.app !! "secret"
  = ((∅ : gmap string PyVal) ∪ init_defaults Sample.db) !! "secret".
Proof.
  split; [reflexivity|]. split; [reflexivity|].
  apply (config_ignores_other_attributes "src.app" ∅ Sample.registry Sample.db
           Sample.people "development" Sample.app
           (full_trace "src.app" Sample.people "development") "secret").
  - exact sample_run_returns.
  - reflexivity.
Defined.

Lemma created_app_root_runs_index_witness :
  blueprint_answers Sample.people "/" "/" = false /\
  get Sample.people_view Sample.app "/" (Sample.down Sample.OperationalError)
  = (Return (mkResponse 200 (Text welcome)),
     mkWorld Sample.app (Sample.down Sample.OperationalError)).
Proof.
  split; [reflexivity|].
  apply (created_app_root_runs_index Sample.people_view "src.app" ∅ Sample.registry
           Sample.db Sample.people "development" Sample.app
           (full_trace "src.app" Sample.people "development")).
  - exact sample_run_returns.
  - reflexivity.
Defined.

Lemma created_app_health_route_witness :
  blueprint_answers Sample.people "/" "/health" = false /\
  get Sample.people_view Sample.app "/health" (Sample.down Sample.OperationalError)
  = (Return (mkResponse 503
               (Json (PDict [("status", PStr "unhealthy");
                             ("database", PStr "disconnected");
                             ("error", PStr "could not connect to server")]))),
     mkWorld Sample.app
       (Sample.mkDemo (Some Sample.OperationalError) (Sample.rows Sample.up)
          ["SELECT 1"])).
Proof.
  split; [reflexivity|].
  exact (created_app_health_route Sample.people_view "src.app" ∅ Sample.registry
           Sample.db Sample.people "development" Sample.app
           (full_trace "src.app" Sample.people "development")
           (Sample.down Sample.OperationalError)
           sample_run_returns eq_refl).
Defined.

